(** * AI Finance Advisor: the allocation, projection and catalog code of
    [app.py], embedded function by function.

    Numbers.  Python's [float] is IEEE binary64.  The numeric code is written
    once, over an interface [PyNum] of the operations the source uses, and
    read at three instances: exact rationals ([Q], the arithmetic the
    specification reasons in), binary64 with the left-to-right [sum] of
    CPython up to 3.11, and binary64 with the compensated [sum] of CPython
    3.12 and later.

    Strings.  A [string] is a sequence of ASCII characters; [lower] and
    [strip] act on ASCII letters and ASCII white space and leave every other
    character alone.

    Exceptions.  A Python call either returns or raises: [outcome]. *)

From Stdlib Require Import ZArith QArith Qround Qabs Qminmax Lia Lqa Bool List.
From Stdlib Require Import String Ascii Permutation Sorted.
From Stdlib Require Import Floats Uint63.
Import ListNotations.

(* ================================================================== *)
(** ** Strings: [str.lower], [str.strip], [==] *)

Open Scope string_scope.

Definition is_upper (c : ascii) : bool :=
  let n := nat_of_ascii c in (65 <=? n)%nat && (n <=? 90)%nat.

Definition lower_char (c : ascii) : ascii :=
  if is_upper c then ascii_of_nat (nat_of_ascii c + 32) else c.

(** [s.lower()] *)
Fixpoint lower (s : string) : string :=
  match s with
  | EmptyString => EmptyString
  | String c s' => String (lower_char c) (lower s')
  end.

(** White space as [str.strip] sees it, within ASCII: tab, line feed,
    vertical tab, form feed, carriage return, the separators 28 to 31 and
    the space. *)
Definition is_space (c : ascii) : bool :=
  let n := nat_of_ascii c in
  ((9 <=? n)%nat && (n <=? 13)%nat) || ((28 <=? n)%nat && (n <=? 32)%nat).

Fixpoint lstrip (s : string) : string :=
  match s with
  | EmptyString => EmptyString
  | String c s' => if is_space c then lstrip s' else s
  end.

Fixpoint rstrip (s : string) : string :=
  match s with
  | EmptyString => EmptyString
  | String c s' =>
      match rstrip s' with
      | EmptyString => if is_space c then EmptyString else String c EmptyString
      | t => String c t
      end
  end.

(** [s.strip()] *)
Definition strip (s : string) : string := rstrip (lstrip s).

(** Case-insensitive equality as the specification words it, character by
    character and without going through [lower]: two characters agree when
    they are equal or are the upper and lower case of one ASCII letter. *)
Definition same_letter (a b : ascii) : Prop :=
  a = b
  \/ (is_upper a = true /\ nat_of_ascii b = nat_of_ascii a + 32)%nat
  \/ (is_upper b = true /\ nat_of_ascii a = nat_of_ascii b + 32)%nat.

Fixpoint ci_eq (s t : string) : Prop :=
  match s, t with
  | EmptyString, EmptyString => True
  | String a s', String b t' => same_letter a b /\ ci_eq s' t'
  | _, _ => False
  end.

Definition same_letterb (a b : ascii) : bool :=
  Ascii.eqb a b
  || (is_upper a && (nat_of_ascii b =? nat_of_ascii a + 32)%nat)
  || (is_upper b && (nat_of_ascii a =? nat_of_ascii b + 32)%nat).

Fixpoint ci_eqb (s t : string) : bool :=
  match s, t with
  | EmptyString, EmptyString => true
  | String a s', String b t' => same_letterb a b && ci_eqb s' t'
  | _, _ => false
  end.

(* ================================================================== *)
(** ** Outcomes of a Python call *)

Inductive exn : Type :=
| KeyError
| ZeroDivisionError
| ValueError
| OverflowError
| AttributeError
| FileNotFoundError
| PermissionError
| IsADirectoryError.

Inductive outcome (A : Type) : Type :=
| Returned (a : A)
| Raised (e : exn).

Arguments Returned {A} a.
Arguments Raised {A} e.

Definition bind {A B : Type} (m : outcome A) (k : A -> outcome B) : outcome B :=
  match m with
  | Returned a => k a
  | Raised e => Raised e
  end.

Notation "x <- m ;; k" := (bind m (fun x => k))
  (at level 61, m at next level, right associativity).

Definition returns {A : Type} (m : outcome A) : bool :=
  match m with Returned _ => true | Raised _ => false end.

(** Running [f] over a list, stopping at the first exception. *)
Fixpoint mapM {A B : Type} (f : A -> outcome B) (l : list A) : outcome (list B) :=
  match l with
  | [] => Returned []
  | a :: l' => b <- f a ;; bs <- mapM f l' ;; Returned (b :: bs)
  end.

(* ================================================================== *)
(** ** Dictionaries with string keys

    A Python [dict] keeps its keys in insertion order, and the order is
    visible here: [sum(ratio.values())] adds in that order and the plan is
    displayed in it.  So a dictionary is an association list. *)

Definition dict (V : Type) : Type := list (string * V).

(** [d[k]] *)
Fixpoint dict_get {V : Type} (k : string) (d : dict V) : outcome V :=
  match d with
  | [] => Raised KeyError
  | (k', v) :: d' => if String.eqb k k' then Returned v else dict_get k d'
  end.

(** [d[k] = v]: an existing key keeps its place, a new one goes last. *)
Fixpoint dict_set {V : Type} (k : string) (v : V) (d : dict V) : dict V :=
  match d with
  | [] => [(k, v)]
  | (k', v') :: d' =>
      if String.eqb k k' then (k', v) :: d' else (k', v') :: dict_set k v d'
  end.

(** [k in d] *)
Definition dict_mem {V : Type} (k : string) (d : dict V) : bool :=
  existsb (fun kv => String.eqb k (fst kv)) d.

Definition keys {V : Type} (d : dict V) : list string := map fst d.
Definition values {V : Type} (d : dict V) : list V := map snd d.

(** [{k: f(v) for k, v in d.items()}], for an [f] that may raise. *)
Definition dict_mapM {V W : Type} (f : V -> outcome W) (d : dict V) : outcome (dict W) :=
  mapM (fun kv => w <- f (snd kv) ;; Returned (fst kv, w)) d.

(** The same for an [f] that cannot raise. *)
Definition dict_map {V W : Type} (f : V -> W) (d : dict V) : dict W :=
  map (fun kv => (fst kv, f (snd kv))) d.

(* ================================================================== *)
(** ** The arithmetic the source uses *)

Class PyNum (R : Type) : Type := {
  of_int : Z -> R;            (* an [int] meeting a [float] in an operation *)
  add : R -> R -> R;
  sub : R -> R -> R;
  mul : R -> R -> R;
  div : R -> R -> R;          (* the quotient, where the divisor is not zero *)
  neg : R -> R;
  eqb : R -> R -> bool;       (* [x == y] *)
  leb : R -> R -> bool;       (* [x <= y] *)
  ltb : R -> R -> bool;       (* [x < y] *)
  py_sum : list R -> R;       (* the builtin [sum] *)
  round2 : R -> R;            (* the builtin [round(x, 2)] *)
  py_int : R -> outcome Z     (* the builtin [int(x)] *)
}.

Declare Scope py_scope.
Delimit Scope py_scope with py.
Infix "+" := add : py_scope.
Infix "-" := sub : py_scope.
Infix "*" := mul : py_scope.
Infix "<=?" := leb : py_scope.
Infix "<?" := ltb : py_scope.

(** A decimal literal of the source, [n/d] with [d] a power of ten: the
    number itself in exact arithmetic, the nearest binary64 value otherwise
    (the division of two exactly represented integers is rounded once). *)
Definition lit {R : Type} `{PyNum R} (n d : Z) : R := div (of_int n) (of_int d).

(** [x / y]: Python raises on a zero divisor. *)
Definition truediv {R : Type} `{PyNum R} (x y : R) : outcome R :=
  if eqb y (of_int 0) then Raised ZeroDivisionError else Returned (div x y).

(** Rounding the rational [a/b] ([b > 0]) to the nearest integer, halves to
    the even neighbour: the rule of Python's [round]. *)
Definition rhe_div (a b : Z) : Z :=
  let q := (a / b)%Z in
  match (2 * (a mod b) ?= b)%Z with
  | Lt => q
  | Gt => (q + 1)%Z
  | Eq => if Z.even q then q else (q + 1)%Z
  end.

(** *** Exact rationals *)

Definition Qround2 (q : Q) : Q :=
  (rhe_div (Qnum q * 100) (Z.pos (Qden q)) # 100).

Definition Qltb (x y : Q) : bool := negb (Qle_bool y x).

(** [int(x)] truncates toward zero. *)
Definition Qtrunc (q : Q) : Z := (Qnum q ÷ Z.pos (Qden q))%Z.

#[export] Instance Q_num : PyNum Q := {
  of_int := inject_Z;
  add := Qplus;
  sub := Qminus;
  mul := Qmult;
  div := Qdiv;
  neg := Qopp;
  eqb := Qeq_bool;
  leb := Qle_bool;
  ltb := Qltb;
  py_sum := fun l => fold_left Qplus l 0%Q;
  round2 := Qround2;
  py_int := fun q => Returned (Qtrunc q)
}.

(** *** IEEE binary64 *)

(** An [int] converted to [float], for integers below 2^63 in size: the
    nearest float, which is the integer itself whenever it is representable
    (always below 2^53, which covers every constant of the source). *)
Definition f64_of_int (z : Z) : float :=
  match z with
  | Z0 => PrimFloat.zero
  | Zpos _ => PrimFloat.of_uint63 (Uint63.of_Z z)
  | Zneg p => PrimFloat.opp (PrimFloat.of_uint63 (Uint63.of_Z (Zpos p)))
  end.

(** [round(x, 2)] on a float: the exact value of [x] is rounded to two
    decimals, halves to even, and the decimal is converted back to the
    nearest float.  From 2^46 on, neighbouring floats are at least 1/64
    apart, more than twice the largest change 0.005 the decimal rounding can
    make, so the nearest float is [x] itself; below, the integer number of
    hundredths is less than 2^53, hence exact as a float, and one correctly
    rounded division by 100 gives the nearest float.  Infinities, NaN and
    zeros are returned as they are. *)
Definition f64_round2 (x : float) : float :=
  match Prim2SF x with
  | S754_finite s m e =>
      if (-6 <=? e)%Z then x
      else
        let n := rhe_div (Z.pos m * 100) (2 ^ (- e)) in
        let q :=
          PrimFloat.div (PrimFloat.of_uint63 (Uint63.of_Z n)) (f64_of_int 100) in
        if s then PrimFloat.opp q else q
  | _ => x
  end.

(** [int(x)] on a float: truncation toward zero; NaN and the infinities
    raise. *)
Definition f64_int (x : float) : outcome Z :=
  match Prim2SF x with
  | S754_zero _ => Returned 0%Z
  | S754_finite s m e =>
      let a :=
        if (0 <=? e)%Z then (Z.pos m * 2 ^ e)%Z else (Z.pos m / 2 ^ (- e))%Z in
      Returned (if s then (- a)%Z else a)
  | S754_infinity _ => Raised OverflowError
  | S754_nan => Raised ValueError
  end.

(** [sum] up to CPython 3.11: the items added left to right to the start
    value 0. *)
Definition f64_sum (l : list float) : float :=
  fold_left PrimFloat.add l PrimFloat.zero.

(** [sum] from CPython 3.12 on: Neumaier's compensated summation, the
    compensation added at the end when it is finite and not zero. *)
Definition neumaier_step (st : float * float) (x : float) : float * float :=
  let '(f, c) := st in
  let t := PrimFloat.add f x in
  if PrimFloat.leb (PrimFloat.abs x) (PrimFloat.abs f)
  then (t, PrimFloat.add c (PrimFloat.add (PrimFloat.sub f t) x))
  else (t, PrimFloat.add c (PrimFloat.add (PrimFloat.sub x t) f)).

Definition f64_sum_compensated (l : list float) : float :=
  match l with
  | [] => PrimFloat.zero
  | x0 :: rest =>
      let '(f, c) :=
        fold_left neumaier_step rest
          (PrimFloat.add PrimFloat.zero x0, PrimFloat.zero) in
      if negb (PrimFloat.is_zero c) && PrimFloat.is_finite c
      then PrimFloat.add f c else f
  end.

(** The interface at binary64, for a given [sum]. *)
Definition f64_num (sum : list float -> float) : PyNum float := {|
  of_int := f64_of_int;
  add := PrimFloat.add;
  sub := PrimFloat.sub;
  mul := PrimFloat.mul;
  div := PrimFloat.div;
  neg := PrimFloat.opp;
  eqb := PrimFloat.eqb;
  leb := PrimFloat.leb;
  ltb := PrimFloat.ltb;
  py_sum := sum;
  round2 := f64_round2;
  py_int := f64_int
|}.

Definition F64 : PyNum float := f64_num f64_sum.
Definition F64c : PyNum float := f64_num f64_sum_compensated.

(* ================================================================== *)
(** ** The allocation engine: [investment_advice] *)

(** What [investment_advice] returns: the dictionary with the single key
    ["error"], or the dictionary of the amounts. *)
Inductive plan (R : Type) : Type :=
| ErrorDict (msg : string)
| Allocations (d : dict R).

Arguments ErrorDict {R} msg.
Arguments Allocations {R} d.

(** ["error" in plan], the caller's test. *)
Definition has_error {R : Type} (p : plan R) : bool :=
  match p with
  | ErrorDict _ => true
  | Allocations d => dict_mem "error" d
  end.


Definition insufficient_msg : string :=
  "Your savings after expenses and debts are insufficient for investment!".

Section Advisor.
Context {R : Type} {N : PyNum R}.
Local Open Scope py_scope.

(** [d[k] += x] and [d[k] -= x]: the key is read, then written. *)
Definition dict_iadd (k : string) (x : R) (d : dict R) : outcome (dict R) :=
  v <- dict_get k d ;; Returned (dict_set k (v + x) d).

Definition dict_isub (k : string) (x : R) (d : dict R) : outcome (dict R) :=
  v <- dict_get k d ;; Returned (dict_set k (v - x) d).

(** Lines 48-53: the base ratio by risk level. *)
Definition base_ratio (risk_level : string) : dict R :=
  if String.eqb (lower risk_level) "high" then
    [("Stocks", lit 45 100); ("Mutual Funds", lit 30 100); ("Gold", lit 10 100);
     ("Insurance", lit 5 100); ("Emergency Fund", lit 10 100)]
  else if String.eqb (lower risk_level) "moderate" then
    [("Stocks", lit 30 100); ("Mutual Funds", lit 30 100); ("Gold", lit 10 100);
     ("Insurance", lit 10 100); ("Emergency Fund", lit 20 100)]
  else
    [("Stocks", lit 20 100); ("Mutual Funds", lit 25 100); ("Gold", lit 10 100);
     ("Insurance", lit 20 100); ("Emergency Fund", lit 25 100)].

(** Lines 57-59, the body of the first [if]. *)
Definition adjust_age_dependents (ratio : dict R) : outcome (dict R) :=
  ratio <- dict_isub "Stocks" (lit 10 100) ratio ;;
  ratio <- dict_iadd "Insurance" (lit 5 100) ratio ;;
  dict_iadd "Emergency Fund" (lit 5 100) ratio.

(** Lines 61-62. *)
Definition adjust_occupation (ratio : dict R) : outcome (dict R) :=
  ratio <- dict_iadd "Emergency Fund" (lit 5 100) ratio ;;
  dict_isub "Mutual Funds" (lit 5 100) ratio.

(** Lines 64-65. *)
Definition adjust_knowledge (ratio : dict R) : outcome (dict R) :=
  ratio <- dict_isub "Stocks" (lit 5 100) ratio ;;
  dict_iadd "Mutual Funds" (lit 5 100) ratio.

(** [x in l] for a list of strings. *)
Definition str_in (x : string) (l : list string) : bool :=
  existsb (String.eqb x) l.

(** Lines 47-65: the ratio table before normalization. *)
Definition adjusted_ratio (age : Z) (risk_level occupation knowledge : string)
  (dependents : Z) : outcome (dict R) :=
  let ratio := base_ratio risk_level in
  ratio <- (if (50 <? age)%Z || (3 <? dependents)%Z
            then adjust_age_dependents ratio else Returned ratio) ;;
  ratio <- (if str_in (lower occupation) ["business"; "freelancer"]
            then adjust_occupation ratio else Returned ratio) ;;
  ratio <- (if String.eqb (lower knowledge) "beginner"
            then adjust_knowledge ratio else Returned ratio) ;;
  Returned ratio.

(** Lines 68-71: normalize and allocate. *)
Definition normalize_allocate (ratio : dict R) (savings : R) : outcome (plan R) :=
  let total_ratio := py_sum (values ratio) in
  ratio <- dict_mapM (fun v => truediv v total_ratio) ratio ;;
  let allocations := dict_map (fun v => round2 (v * savings)) ratio in
  Returned (Allocations allocations).

Definition investment_advice (income expenses : R) (age : Z)
  (risk_level occupation knowledge : string) (dependents : Z) (debt : R)
  : outcome (plan R) :=
  let savings := income - expenses - debt in
  if savings <=? of_int 0 then Returned (ErrorDict insufficient_msg)
  else
    ratio <- adjusted_ratio age risk_level occupation knowledge dependents ;;
    normalize_allocate ratio savings.

(** *** The table as the specification words it

    A base table picked by risk tolerance, then per bucket the deltas of the
    blocks that fire, in the order of the blocks. *)

Record ratios : Type := {
  stocks : R; mutual_funds : R; gold : R; insurance : R; emergency_fund : R
}.

Definition spec_base (risk : string) : ratios :=
  if ci_eqb risk "High" then
    {| stocks := lit 45 100; mutual_funds := lit 30 100; gold := lit 10 100;
       insurance := lit 5 100; emergency_fund := lit 10 100 |}
  else if ci_eqb risk "Moderate" then
    {| stocks := lit 30 100; mutual_funds := lit 30 100; gold := lit 10 100;
       insurance := lit 10 100; emergency_fund := lit 20 100 |}
  else
    {| stocks := lit 20 100; mutual_funds := lit 25 100; gold := lit 10 100;
       insurance := lit 20 100; emergency_fund := lit 25 100 |}.

Definition fires_age_dependents (age dependents : Z) : bool :=
  (age >? 50)%Z || (dependents >? 3)%Z.

Definition fires_occupation (occupation : string) : bool :=
  ci_eqb occupation "Business" || ci_eqb occupation "Freelancer".

Definition fires_knowledge (knowledge : string) : bool :=
  ci_eqb knowledge "Beginner".

Definition plus_if (c : bool) (delta x : R) : R := if c then x + delta else x.
Definition minus_if (c : bool) (delta x : R) : R := if c then x - delta else x.

Definition spec_ratio (age : Z) (risk occupation knowledge : string)
  (dependents : Z) : ratios :=
  let b := spec_base risk in
  let c1 := fires_age_dependents age dependents in
  let c2 := fires_occupation occupation in
  let c3 := fires_knowledge knowledge in
  {| stocks := minus_if c3 (lit 5 100) (minus_if c1 (lit 10 100) (stocks b));
     mutual_funds := plus_if c3 (lit 5 100) (minus_if c2 (lit 5 100) (mutual_funds b));
     gold := gold b;
     insurance := plus_if c1 (lit 5 100) (insurance b);
     emergency_fund :=
       plus_if c2 (lit 5 100) (plus_if c1 (lit 5 100) (emergency_fund b)) |}.

(** The dictionary holding a table, keys in the order of the source. *)
Definition table (r : ratios) : dict R :=
  [("Stocks", stocks r); ("Mutual Funds", mutual_funds r); ("Gold", gold r);
   ("Insurance", insurance r); ("Emergency Fund", emergency_fund r)].

(** The amounts of lines 68-70 written out bucket by bucket. *)
Definition total_of (r : ratios) : R := py_sum (values (table r)).

Definition share (r : ratios) (savings x : R) : R :=
  round2 (div x (total_of r) * savings).

Definition spec_allocate (r : ratios) (savings : R) : dict R :=
  [("Stocks", share r savings (stocks r));
   ("Mutual Funds", share r savings (mutual_funds r));
   ("Gold", share r savings (gold r));
   ("Insurance", share r savings (insurance r));
   ("Emergency Fund", share r savings (emergency_fund r))].

End Advisor.

(** The divisor of the normalization is never zero: a property of an
    arithmetic, checked below for each of the three. *)
Definition divisor_ok {R : Type} (N : PyNum R) : Prop :=
  forall a risk occ know d,
    eqb (total_of (spec_ratio a risk occ know d)) (of_int 0) = false.

(** The ratio table takes one of finitely many values. *)
Definition ratio_case {R : Type} {N : PyNum R} (hi mo c1 c2 c3 : bool) : ratios :=
  let b :=
    if hi then
      {| stocks := lit 45 100; mutual_funds := lit 30 100; gold := lit 10 100;
         insurance := lit 5 100; emergency_fund := lit 10 100 |}
    else if mo then
      {| stocks := lit 30 100; mutual_funds := lit 30 100; gold := lit 10 100;
         insurance := lit 10 100; emergency_fund := lit 20 100 |}
    else
      {| stocks := lit 20 100; mutual_funds := lit 25 100; gold := lit 10 100;
         insurance := lit 20 100; emergency_fund := lit 25 100 |} in
  {| stocks := minus_if c3 (lit 5 100) (minus_if c1 (lit 10 100) (stocks b));
     mutual_funds := plus_if c3 (lit 5 100) (minus_if c2 (lit 5 100) (mutual_funds b));
     gold := gold b;
     insurance := plus_if c1 (lit 5 100) (insurance b);
     emergency_fund :=
       plus_if c2 (lit 5 100) (plus_if c1 (lit 5 100) (emergency_fund b)) |}.

(* ================================================================== *)
(** ** The projection engine: [compound_with_stepup] *)

(** [range(n)] *)
Definition range (n : Z) : list Z := map Z.of_nat (seq 0 (Z.to_nat n)).

Section Projection.
Context {R : Type} {N : PyNum R}.
Local Open Scope py_scope.

(** Lines 83-85, one turn of the loop on [(total, monthly_investment)]. *)
Definition month_step (r step_up_rate : R) (st : R * R) (month : Z) : R * R :=
  let '(total, monthly_investment) := st in
  let total := total * (of_int 1 + r) + monthly_investment in
  if ((month + 1) mod 12 =? 0)%Z
  then (total, monthly_investment * (of_int 1 + step_up_rate))
  else (total, monthly_investment).

(** The loop of lines 82-85 over a given number of months. *)
Definition run_months (r step_up_rate : R) (n : Z) (principal monthly_addition : R)
  : R * R :=
  fold_left (month_step r step_up_rate) (range n) (principal, monthly_addition).

(** Lines 76-86.  The divisor of [rate / 12] is the literal 12. *)
Definition compound_with_stepup
  (principal rate years monthly_addition step_up_rate : R) : outcome R :=
  let r := div rate (of_int 12) in
  n <- py_int (years * of_int 12) ;;
  let '(total, _) := run_months r step_up_rate n principal monthly_addition in
  Returned (round2 total).

(** *** The recurrence as the specification words it

    Months are counted from 1.  The contribution paid in month [m] has been
    stepped up once for every full year before it, and the total after [k]
    months grows by the monthly rate and that month's contribution. *)
Definition contribution (monthly_contribution step_up : R) (m : nat) : R :=
  Nat.iter ((m - 1) / 12) (fun c => c * (of_int 1 + step_up)) monthly_contribution.

Fixpoint total_after (principal r monthly_contribution step_up : R) (k : nat) : R :=
  match k with
  | O => principal
  | S k' =>
      total_after principal r monthly_contribution step_up k' * (of_int 1 + r)
      + contribution monthly_contribution step_up k
  end.

End Projection.

(* ================================================================== *)
(** ** The instrument catalog: [load_resources], [get_top_items]

    A CAGR is the exact value of the parsed float; the not-a-number value,
    which [float] accepts as text but no order ranks, is left out. *)

Record resource : Type := {
  r_type : string;
  r_name : string;
  cagr_10y : option Q
}.

(** A row as [csv.DictReader] yields it: the header's columns as keys, and
    [None] as the value of a column the row is too short to fill. *)
Definition row : Type := dict (option string).

(** [row.get(k, default)] *)
Fixpoint row_get (k : string) (default : string) (r : row) : option string :=
  match r with
  | [] => Some default
  | (k', v) :: r' => if String.eqb k k' then v else row_get k default r'
  end.

(** The truth value of what [row.get] returned: [None] and the empty string
    are false. *)
Definition truthy (v : option string) : bool :=
  match v with
  | Some s => negb (String.eqb s "")
  | None => false
  end.

(** [v.strip()]: [None] has no such method. *)
Definition strip_field (v : option string) : outcome string :=
  match v with
  | Some s => Returned (strip s)
  | None => Raised AttributeError
  end.

Definition not_found_msg : string := "CSV file not found. Please check the path.".

Section Loader.

(** The world outside: what [open] and the reader do at a path, and the
    builtin [float] on text ([None] for a [ValueError]). *)
Variable open_csv : string -> outcome (list row).
Variable parse_float : string -> option Q.

(** Lines 17-20. *)
Definition parse_cagr (r : row) : option Q :=
  if truthy (row_get "CAGR_10Y_%" "" r)
  then match row_get "CAGR_10Y_%" "" r with
       | Some s => parse_float s
       | None => None
       end
  else None.

(** Lines 17-25, the body of the loop. *)
Definition load_row (r : row) : outcome resource :=
  let cagr := parse_cagr r in
  t <- strip_field (row_get "Type" "" r) ;;
  n <- strip_field (row_get "Name" "" r) ;;
  Returned {| r_type := t; r_name := n; cagr_10y := cagr |}.

(** Lines 10-28: the outcome, and the messages shown with [st.error]. *)
Definition load_resources (csv_path : string) : outcome (list resource) * list string :=
  match open_csv csv_path with
  | Returned rows => (mapM load_row rows, [])
  | Raised FileNotFoundError => (Returned [], [not_found_msg])
  | Raised e => (Raised e, [])
  end.

End Loader.

(** The sort key of line 35, [(cagr is None, -cagr if cagr else 0)]. *)
Definition sort_key (x : resource) : bool * Q :=
  match cagr_10y x with
  | None => (true, 0%Q)
  | Some c => (false, if Qeq_bool c 0 then 0%Q else (- c)%Q)
  end.

(** [k1 < k2] on such pairs: the first components decide unless equal. *)
Definition key_lt (k1 k2 : bool * Q) : bool :=
  if Bool.eqb (fst k1) (fst k2)
  then (if Qeq_bool (snd k1) (snd k2) then false else Qltb (snd k1) (snd k2))
  else negb (fst k1) && fst k2.

(** [list.sort(key=...)]: a stable sort that compares keys with [<].  An
    item is placed before the first one that is not smaller than it. *)
Fixpoint insert_by {A K : Type} (lt : K -> K -> bool) (key : A -> K) (x : A)
  (l : list A) : list A :=
  match l with
  | [] => [x]
  | y :: l' => if lt (key y) (key x) then y :: insert_by lt key x l' else x :: l
  end.

Definition sort_by {A K : Type} (lt : K -> K -> bool) (key : A -> K) (l : list A)
  : list A :=
  fold_right (insert_by lt key) [] l.

(** [l[:n]]: a negative [n] counts from the end. *)
Definition slice_to {A : Type} (n : Z) (l : list A) : list A :=
  if (0 <=? n)%Z then firstn (Z.to_nat n) l
  else firstn (List.length l - Z.to_nat (- n)) l.

(** Lines 31-36. *)
Definition get_top_items (resources : list resource) (category : string) (top_n : Z)
  : list resource :=
  let cat := lower (strip category) in
  let filtered := filter (fun r => String.eqb (lower (r_type r)) cat) resources in
  let filtered := sort_by key_lt sort_key filtered in
  slice_to top_n filtered.

(* ================================================================== *)
(** ** The personalized-plan flow (lines 115-167) *)

(** The values of the input widgets. *)
Record request (R : Type) : Type := {
  age : Z;
  income : R;
  expenses : R;
  debt : R;
  dependents : Z;
  occupation : string;
  knowledge : string;
  risk_level : string;
  step_up_percent : Z;          (* the slider; [step_up] is this over 100 *)
  years : Z;
  goal : string;
  goal_amount : R;
  existing_savings : R
}.

Arguments age {R} _.
Arguments income {R} _.
Arguments expenses {R} _.
Arguments debt {R} _.
Arguments dependents {R} _.
Arguments occupation {R} _.
Arguments knowledge {R} _.
Arguments risk_level {R} _.
Arguments step_up_percent {R} _.
Arguments years {R} _.
Arguments goal {R} _.
Arguments goal_amount {R} _.
Arguments existing_savings {R} _.

(** The request with another existing-savings figure. *)
Definition with_existing_savings {R : Type} (q : request R) (x : R) : request R :=
  {| age := age q; income := income q; expenses := expenses q; debt := debt q;
     dependents := dependents q; occupation := occupation q;
     knowledge := knowledge q; risk_level := risk_level q;
     step_up_percent := step_up_percent q; years := years q; goal := goal q;
     goal_amount := goal_amount q; existing_savings := x |}.

(** What the page shows after the button is pressed. *)
Inductive page (R : Type) : Type :=
| ShowError (msg : string)
| ShowPlan (total_savings : R) (allocation : dict R) (projections : dict R)
    (total_future_value : R) (suggestions : dict (list resource)).

Arguments ShowError {R} msg.
Arguments ShowPlan {R} total_savings allocation projections total_future_value suggestions.

Definition cat_map : dict string :=
  [("Stocks", "Stock"); ("Mutual Funds", "Mutual Fund"); ("Gold", "Gold");
   ("Insurance", "Insurance"); ("Emergency Fund", "Other")].

Section PlanFlow.
Context {R : Type} {N : PyNum R}.
Local Open Scope py_scope.

Definition returns_rate : dict R :=
  [("Stocks", lit 15 100); ("Mutual Funds", lit 13 100); ("Gold", lit 9 100);
   ("Insurance", lit 5 100); ("Emergency Fund", lit 3 100)].

(** [plan["error"]] and [plan.items()] on the two shapes of a plan. *)
Definition error_text (p : plan R) : string :=
  match p with ErrorDict msg => msg | Allocations _ => "" end.

Definition items (p : plan R) : dict R :=
  match p with ErrorDict _ => [] | Allocations d => d end.

(** Line 150, for one bucket: the principal is the literal 0. *)
Definition project_bucket (q : request R) (kv : string * R) : outcome (string * R) :=
  rate <- dict_get (fst kv) returns_rate ;;
  fv <- compound_with_stepup (of_int 0) rate (of_int (years q)) (snd kv)
          (lit (step_up_percent q) 100) ;;
  Returned (fst kv, fv).

(** Lines 159-161, for one bucket. *)
Definition suggest_bucket (resources : list resource) (category : string)
  : outcome (string * list resource) :=
  c <- dict_get category cat_map ;;
  Returned (category, get_top_items resources c 3).

(** Lines 135-167. *)
Definition generate_plan (resources : list resource) (q : request R) : outcome (page R) :=
  plan <- investment_advice (income q) (expenses q) (age q) (risk_level q)
            (occupation q) (knowledge q) (dependents q) (debt q) ;;
  if has_error plan then Returned (ShowError (error_text plan))
  else
    let total_savings := income q - expenses q - debt q in
    projections <- mapM (project_bucket q) (items plan) ;;
    let total_future_value := fold_left add (values projections) (of_int 0) in
    suggestions <- mapM (suggest_bucket resources) (keys (items plan)) ;;
    Returned (ShowPlan total_savings (items plan) projections total_future_value
                suggestions).

End PlanFlow.

(* ================================================================== *)
(** ** The explorer's growth calculation (lines 184-192) *)

Section Explorer.
Context {R : Type} {N : PyNum R}.
Local Open Scope py_scope.

(** The power operator [**] with an integer exponent. *)
Variable pow : R -> Z -> R.

(** The builtin [min(a, b)]: [b] only when it is strictly smaller. *)
Definition py_min (a b : R) : R := if b <? a then b else a.

(** The future value, the profit and the argument of [st.progress]. *)
Definition calculate_growth (amount rate : R) (years : Z) : R * R * R :=
  let final_value := amount * pow (of_int 1 + div rate (of_int 100)) years in
  let profit := final_value - amount in
  (final_value, profit, py_min (div final_value (amount * of_int 3)) (of_int 1)).

End Explorer.

(** [**] in exact arithmetic. *)
Definition Qpow (x : Q) (n : Z) : Q := Qpower x n.

(* ================================================================== *)
(** ** Statements about an arithmetic

    The properties below are stated once and read at each of the three
    arithmetics. *)

Definition bucket_names : list string :=
  ["Stocks"; "Mutual Funds"; "Gold"; "Insurance"; "Emergency Fund"].

(** The contract of [investment_advice]: it never raises; it returns the
    error dictionary when the savings are not positive, and otherwise a
    dictionary of the five buckets, which has no key ["error"]. *)
Definition advice_contract {R : Type} (N : PyNum R) : Prop :=
  forall (income expenses : R) (age : Z) (risk occ know : string)
         (dependents : Z) (debt : R),
    if leb (sub (sub income expenses) debt) (of_int 0)
    then investment_advice income expenses age risk occ know dependents debt
         = Returned (ErrorDict insufficient_msg)
    else exists d,
        investment_advice income expenses age risk occ know dependents debt
        = Returned (Allocations d)
        /\ keys d = bucket_names
        /\ has_error (Allocations d) = false.

(** With positive savings every amount returned is at least zero. *)
Definition nonneg_amounts {R : Type} (N : PyNum R) : Prop :=
  forall (income expenses : R) (age : Z) (risk occ know : string)
         (dependents : Z) (debt : R),
    ltb (of_int 0) (sub (sub income expenses) debt) = true ->
    exists d,
      investment_advice income expenses age risk occ know dependents debt
      = Returned (Allocations d)
      /\ keys d = bucket_names
      /\ forallb (fun a => leb (of_int 0) a) (values d) = true.

(** *** Reading a binary64 value *)

(** Zero or above: a zero of either sign, a positive number, plus
    infinity. *)
Definition sf_nonneg (x : spec_float) : bool :=
  match x with
  | S754_zero _ | S754_finite false _ _ | S754_infinity false => true
  | _ => false
  end.

(** Above zero. *)
Definition sf_pos (x : spec_float) : bool :=
  match x with
  | S754_finite false _ _ | S754_infinity false => true
  | _ => false
  end.

(** The rational a finite float stands for (0 for the others). *)
Definition f64_exact (x : float) : Q :=
  match Prim2SF x with
  | S754_finite s m e =>
      let v := if (0 <=? e)%Z then inject_Z (Z.pos m * 2 ^ e)
               else Z.pos m # Z.to_pos (2 ^ (- e)) in
      if s then Qopp v else v
  | _ => 0%Q
  end.







(** What a field of a row holds as text; a column the row is too short for
    holds none. *)
Definition field_text (v : option string) : string :=
  match v with Some s => s | None => "" end.

(** A row [load_row] can take in: the row is not too short for the columns
    Type and Name, where the header has them. *)
Definition has_text_fields (r : row) : Prop :=
  row_get "Type" "" r <> None /\ row_get "Name" "" r <> None.

(** The CAGR of a row as the specification words it: a number when the
    field is there, not empty and parses, and otherwise unknown. *)
Definition spec_cagr (parse_float : string -> option Q) (r : row) : option Q :=
  match row_get "CAGR_10Y_%" "" r with
  | Some s => if String.eqb s "" then None else parse_float s
  | None => None
  end.

(** The record of a row. *)
Definition record_of (parse_float : string -> option Q) (r : row) : resource :=
  {| r_type := strip (field_text (row_get "Type" "" r));
     r_name := strip (field_text (row_get "Name" "" r));
     cagr_10y := spec_cagr parse_float r |}.


(** The operations of the interface, read at [Q]. *)
Ltac qops :=
  change (@add Q Q_num) with Qplus in *;
  change (@sub Q Q_num) with Qminus in *;
  change (@mul Q Q_num) with Qmult in *;
  change (@div Q Q_num) with Qdiv in *;
  change (@neg Q Q_num) with Qopp in *;
  change (@of_int Q Q_num) with inject_Z in *.

(* ================================================================== *)
(** * Properties *)

(** ** Strings *)

Lemma nat_of_ascii_inj a b : nat_of_ascii a = nat_of_ascii b -> a = b.
Proof.
  intros H. rewrite <- (ascii_nat_embedding a), <- (ascii_nat_embedding b).
  now rewrite H.
Qed.

Lemma ascii_eqb_code a b :
  Ascii.eqb a b = (nat_of_ascii a =? nat_of_ascii b)%nat.
Proof.
  destruct (Ascii.eqb_spec a b) as [->|Hne].
  - now rewrite Nat.eqb_refl.
  - symmetry. apply Nat.eqb_neq. intros H. apply Hne, nat_of_ascii_inj, H.
Qed.

Lemma is_upper_range c :
  is_upper c = true <-> (65 <= nat_of_ascii c <= 90)%nat.
Proof.
  unfold is_upper. rewrite andb_true_iff, !Nat.leb_le. tauto.
Qed.

Lemma lower_char_code c :
  nat_of_ascii (lower_char c)
  = if is_upper c then (nat_of_ascii c + 32)%nat else nat_of_ascii c.
Proof.
  unfold lower_char. destruct (is_upper c) eqn:E; [|reflexivity].
  apply is_upper_range in E. apply nat_ascii_embedding. lia.
Qed.

Lemma same_letterb_lower a b :
  same_letterb a b = Ascii.eqb (lower_char a) (lower_char b).
Proof.
  unfold same_letterb. rewrite !ascii_eqb_code, !lower_char_code.
  destruct (is_upper a) eqn:Ea, (is_upper b) eqn:Eb; cbn [andb orb];
    try (apply is_upper_range in Ea); try (apply is_upper_range in Eb);
    repeat match goal with
    | |- context [(?x =? ?y)%nat] => destruct (Nat.eqb_spec x y)
    end; cbn; try reflexivity; try lia.
  - apply not_true_iff_false in Eb. exfalso. apply Eb, is_upper_range. lia.
  - apply not_true_iff_false in Ea. exfalso. apply Ea, is_upper_range. lia.
Qed.

Lemma same_letterb_spec a b : same_letterb a b = true <-> same_letter a b.
Proof.
  unfold same_letterb, same_letter.
  rewrite !orb_true_iff, !andb_true_iff, !Nat.eqb_eq, Ascii.eqb_eq. tauto.
Qed.

(** [lower] decides case-insensitive equality. *)
Lemma ci_eqb_lower s t : ci_eqb s t = String.eqb (lower s) (lower t).
Proof.
  revert t. induction s as [|a s IH]; intros [|b t]; cbn; try reflexivity.
  rewrite same_letterb_lower, IH.
  destruct (Ascii.eqb (lower_char a) (lower_char b)); reflexivity.
Qed.

Lemma ci_eqb_spec s t : ci_eqb s t = true <-> ci_eq s t.
Proof.
  revert t. induction s as [|a s IH]; intros [|b t]; cbn; try tauto;
    try (split; [discriminate | tauto]).
  rewrite andb_true_iff, same_letterb_spec, IH. tauto.
Qed.

Lemma lower_eq_iff s t : lower s = lower t <-> ci_eq s t.
Proof.
  rewrite <- ci_eqb_spec, ci_eqb_lower. symmetry. apply String.eqb_eq.
Qed.

(** ** The allocation engine, for every arithmetic *)

Section AdvisorFacts.
Context {R : Type} {N : PyNum R}.
Local Open Scope py_scope.

Lemma eqb_lower_ci (s t : string) :
  String.eqb (lower s) (lower t) = ci_eqb s t.
Proof. symmetry. apply ci_eqb_lower. Qed.

Lemma base_ratio_table risk : base_ratio risk = table (spec_base risk).
Proof.
  unfold base_ratio, spec_base.
  change "high" with (lower "High"). change "moderate" with (lower "Moderate").
  rewrite !eqb_lower_ci.
  destruct (ci_eqb risk "High"); [reflexivity|].
  destruct (ci_eqb risk "Moderate"); reflexivity.
Qed.

Lemma fires_age_dependents_code a d :
  (50 <? a)%Z || (3 <? d)%Z = fires_age_dependents a d.
Proof. unfold fires_age_dependents. now rewrite !Z.gtb_ltb. Qed.

Lemma fires_occupation_code occ :
  str_in (lower occ) ["business"; "freelancer"] = fires_occupation occ.
Proof.
  unfold str_in, fires_occupation. cbn [existsb].
  change "business" with (lower "Business").
  change "freelancer" with (lower "Freelancer").
  rewrite !eqb_lower_ci. now rewrite orb_false_r.
Qed.

Lemma fires_knowledge_code k :
  String.eqb (lower k) "beginner" = fires_knowledge k.
Proof.
  unfold fires_knowledge. change "beginner" with (lower "Beginner").
  apply eqb_lower_ci.
Qed.

(** The code's table is the specification's, for every input. *)
Lemma adjusted_ratio_table a risk occ know d :
  adjusted_ratio a risk occ know d = Returned (table (spec_ratio a risk occ know d)).
Proof.
  unfold adjusted_ratio, spec_ratio.
  rewrite base_ratio_table, fires_age_dependents_code, fires_occupation_code,
    fires_knowledge_code.
  destruct (fires_age_dependents a d), (fires_occupation occ), (fires_knowledge know);
    reflexivity.
Qed.

Lemma normalize_allocate_table r savings :
  normalize_allocate (table r) savings
  = if eqb (total_of r) (of_int 0) then Raised ZeroDivisionError
    else Returned (Allocations (spec_allocate r savings)).
Proof.
  unfold normalize_allocate, dict_mapM, truediv, spec_allocate, share.
  fold (total_of r). cbn [table mapM fst snd bind].
  destruct (eqb (total_of r) (of_int 0)); reflexivity.
Qed.

Lemma investment_advice_unfold inc ex a risk occ know d debt :
  investment_advice inc ex a risk occ know d debt
  = if inc - ex - debt <=? of_int 0 then Returned (ErrorDict insufficient_msg)
    else normalize_allocate (table (spec_ratio a risk occ know d)) (inc - ex - debt).
Proof.
  unfold investment_advice. now rewrite adjusted_ratio_table.
Qed.

End AdvisorFacts.

Lemma spec_ratio_case {R : Type} {N : PyNum R} a risk occ know d :
  spec_ratio a risk occ know d
  = ratio_case (ci_eqb risk "High") (ci_eqb risk "Moderate")
      (fires_age_dependents a d) (fires_occupation occ) (fires_knowledge know).
Proof.
  unfold spec_ratio, ratio_case, spec_base.
  destruct (ci_eqb risk "High"); [reflexivity|].
  destruct (ci_eqb risk "Moderate"); reflexivity.
Qed.

Lemma divisor_ok_cases {R : Type} (N : PyNum R) :
  (forall hi mo c1 c2 c3,
      eqb (total_of (ratio_case hi mo c1 c2 c3)) (of_int 0) = false) ->
  divisor_ok N.
Proof. intros H a risk occ know d. rewrite spec_ratio_case. apply H. Qed.

Lemma divisor_ok_Q : divisor_ok Q_num.
Proof.
  apply divisor_ok_cases.
  intros [|] [|] [|] [|] [|]; vm_compute; reflexivity.
Qed.

Lemma divisor_ok_F64 : divisor_ok F64.
Proof.
  apply divisor_ok_cases.
  intros [|] [|] [|] [|] [|]; vm_compute; reflexivity.
Qed.

Lemma divisor_ok_F64c : divisor_ok F64c.
Proof.
  apply divisor_ok_cases.
  intros [|] [|] [|] [|] [|]; vm_compute; reflexivity.
Qed.

Local Open Scope Q_scope.

(** ** Exact arithmetic *)

Lemma Qsum_shift (l : list Q) (a : Q) :
  fold_left Qplus l a == a + fold_left Qplus l 0.
Proof.
  revert a. induction l as [|x l IH]; intros a; cbn.
  - lra.
  - rewrite IH, (IH (0 + x)). lra.
Qed.

Lemma Qsum_cons (x : Q) (l : list Q) :
  py_sum (x :: l) == x + py_sum l.
Proof. cbn. rewrite Qsum_shift. lra. Qed.

(** Writing [w] over the value [v] of a key moves the sum by [w - v]. *)
Lemma dict_set_sum (k : string) (v w : Q) (d : dict Q) :
  dict_get k d = Returned v ->
  py_sum (values (dict_set k w d)) == py_sum (values d) - v + w.
Proof.
  induction d as [|[k' v'] d IH]; cbn [dict_get dict_set]; [discriminate|].
  destruct (String.eqb k k').
  - intros [= ->]. unfold values. cbn [map snd]. rewrite !Qsum_cons. lra.
  - intros H. unfold values in *. cbn [map snd]. rewrite !Qsum_cons, (IH H). lra.
Qed.

Lemma dict_iadd_sum k (x : Q) d d' :
  dict_iadd k x d = Returned d' ->
  py_sum (values d') == py_sum (values d) + x.
Proof.
  unfold dict_iadd. destruct (dict_get k d) as [v|] eqn:E; cbn [bind]; [|discriminate].
  intros [= <-]. rewrite (dict_set_sum _ _ _ _ E). qops. lra.
Qed.

Lemma dict_isub_sum k (x : Q) d d' :
  dict_isub k x d = Returned d' ->
  py_sum (values d') == py_sum (values d) - x.
Proof.
  unfold dict_isub. destruct (dict_get k d) as [v|] eqn:E; cbn [bind]; [|discriminate].
  intros [= <-]. rewrite (dict_set_sum _ _ _ _ E). qops. lra.
Qed.

Lemma lit_Q (n : Z) (d : positive) : @lit Q Q_num n (Z.pos d) == n # d.
Proof.
  unfold lit. cbn. unfold Qdiv, Qinv, Qmult, Qeq, inject_Z. cbn. lia.
Qed.

(** Each adjustment block leaves the sum of the ratios where it was. *)
Lemma adjust_age_dependents_sum (d d' : dict Q) :
  adjust_age_dependents d = Returned d' ->
  py_sum (values d') == py_sum (values d).
Proof.
  unfold adjust_age_dependents.
  destruct (dict_isub _ _ d) as [d1|] eqn:E1; cbn [bind]; [|discriminate].
  destruct (dict_iadd _ _ d1) as [d2|] eqn:E2; cbn [bind]; [|discriminate].
  intros E3.
  rewrite (dict_iadd_sum _ _ _ _ E3), (dict_iadd_sum _ _ _ _ E2),
    (dict_isub_sum _ _ _ _ E1), !lit_Q. lra.
Qed.

Lemma adjust_occupation_sum (d d' : dict Q) :
  adjust_occupation d = Returned d' ->
  py_sum (values d') == py_sum (values d).
Proof.
  unfold adjust_occupation.
  destruct (dict_iadd _ _ d) as [d1|] eqn:E1; cbn [bind]; [|discriminate].
  intros E2.
  rewrite (dict_isub_sum _ _ _ _ E2), (dict_iadd_sum _ _ _ _ E1), !lit_Q. lra.
Qed.

Lemma adjust_knowledge_sum (d d' : dict Q) :
  adjust_knowledge d = Returned d' ->
  py_sum (values d') == py_sum (values d).
Proof.
  unfold adjust_knowledge.
  destruct (dict_isub _ _ d) as [d1|] eqn:E1; cbn [bind]; [|discriminate].
  intros E2.
  rewrite (dict_iadd_sum _ _ _ _ E2), (dict_isub_sum _ _ _ _ E1), !lit_Q. lra.
Qed.

(** In exact arithmetic the ratios sum to 1, whatever fires. *)
Lemma total_of_Q a risk occ know d :
  @total_of Q Q_num (spec_ratio a risk occ know d) == 1.
Proof.
  rewrite spec_ratio_case.
  destruct (ci_eqb risk "High"), (ci_eqb risk "Moderate"),
    (fires_age_dependents a d), (fires_occupation occ), (fires_knowledge know);
    vm_compute; reflexivity.
Qed.



(** ** binary64: signs through the rounding of [SpecFloat] *)

Lemma shr_1_nonneg mrs : (0 <= shr_m mrs)%Z -> (0 <= shr_m (shr_1 mrs))%Z.
Proof.
  destruct mrs as [m r s]. cbn [shr_m]. intros H.
  destruct m as [|[p|p|]|p]; cbn; lia.
Qed.

Lemma iter_shr_1_nonneg p mrs :
  (0 <= shr_m mrs)%Z -> (0 <= shr_m (iter_pos shr_1 p mrs))%Z.
Proof.
  revert mrs. induction p as [p IH|p IH|]; intros mrs H; cbn [iter_pos].
  - apply IH, IH, shr_1_nonneg, H.
  - apply IH, IH, H.
  - apply shr_1_nonneg, H.
Qed.

Lemma shr_fexp_nonneg m e l :
  (0 <= m)%Z -> (0 <= shr_m (fst (shr_fexp prec emax m e l)))%Z.
Proof.
  intros H. unfold shr_fexp, shr.
  assert (H0 : (0 <= shr_m (shr_record_of_loc m l))%Z)
    by (destruct l as [|[| |]]; exact H).
  destruct (fexp prec emax (Zdigits2 m + e) - e)%Z; cbn [fst]; auto.
  apply iter_shr_1_nonneg, H0.
Qed.

Lemma round_nearest_even_nonneg m l :
  (0 <= m)%Z -> (0 <= round_nearest_even m l)%Z.
Proof.
  intros H. destruct l as [|[| |]]; cbn; try destruct (Z.even m); lia.
Qed.

(** Rounding a non-negative mantissa under the sign [false] gives a zero, a
    positive number or plus infinity. *)
Lemma binary_round_aux_nonneg m e l :
  (0 <= m)%Z -> sf_nonneg (binary_round_aux prec emax false m e l) = true.
Proof.
  intros H. unfold binary_round_aux.
  pose proof (shr_fexp_nonneg m e l H) as H1.
  destruct (shr_fexp prec emax m e l) as [mrs' e'] eqn:E1. cbn [fst] in H1.
  pose proof (shr_fexp_nonneg _ e' loc_Exact
                (round_nearest_even_nonneg _ (loc_of_shr_record mrs') H1)) as H2.
  destruct (shr_fexp prec emax _ e' loc_Exact) as [mrs'' e''] eqn:E2.
  cbn [fst] in H2.
  destruct (shr_m mrs'') as [|p|p]; [reflexivity| |lia].
  destruct (e'' <=? emax - prec)%Z; reflexivity.
Qed.

Lemma binary_round_nonneg m e :
  sf_nonneg (binary_round prec emax false m e) = true.
Proof.
  unfold binary_round. destruct (shl_align m e _) as [mz ez].
  apply binary_round_aux_nonneg. lia.
Qed.

Lemma SFmul_pos x y :
  sf_pos x = true -> sf_pos y = true -> sf_nonneg (SFmul prec emax x y) = true.
Proof.
  destruct x as [| [|] | | [|] mx ex], y as [| [|] | | [|] my ey];
    try discriminate; intros _ _; try reflexivity.
  cbn [SFmul xorb]. apply binary_round_aux_nonneg. lia.
Qed.

Lemma SFdiv_nonneg x my ey :
  sf_nonneg x = true ->
  sf_nonneg (SFdiv prec emax x (S754_finite false my ey)) = true.
Proof.
  destruct x as [sx| [|] | | [|] mx ex]; try discriminate; intros _;
    try (destruct sx; reflexivity); try reflexivity.
  cbn [SFdiv xorb]. unfold SFdiv_core_binary.
  set (s := (ex - ey - _)%Z).
  set (m' := match s with Z0 => _ | Zpos _ => _ | Zneg _ => _ end).
  assert (Hm' : (0 <= m')%Z).
  { subst m'. destruct s; try lia. apply Z.shiftl_nonneg. lia. }
  pose proof (Z.div_pos m' (Z.pos my) Hm' ltac:(lia)) as Hq.
  unfold Z.div in Hq. destruct (Z.div_eucl m' (Z.pos my)) as [q r].
  cbn [fst] in Hq. apply binary_round_aux_nonneg, Hq.
Qed.

(** ** binary64: the primitive operations *)

Lemma Prim2SF_zero : Prim2SF PrimFloat.zero = S754_zero false.
Proof. reflexivity. Qed.

Lemma f64_leb_zero x :
  sf_nonneg (Prim2SF x) = true -> PrimFloat.leb PrimFloat.zero x = true.
Proof.
  rewrite FloatAxioms.leb_spec, Prim2SF_zero.
  destruct (Prim2SF x) as [s|[|]| |[|] m e]; try discriminate; reflexivity.
Qed.

Lemma f64_ltb_zero x :
  PrimFloat.ltb PrimFloat.zero x = true -> sf_pos (Prim2SF x) = true.
Proof.
  rewrite FloatAxioms.ltb_spec, Prim2SF_zero.
  destruct (Prim2SF x) as [s|[|]| |[|] m e]; try discriminate; reflexivity.
Qed.

Lemma f64_pos_guard x :
  PrimFloat.ltb PrimFloat.zero x = true -> PrimFloat.leb x PrimFloat.zero = false.
Proof.
  rewrite FloatAxioms.ltb_spec, FloatAxioms.leb_spec, Prim2SF_zero.
  destruct (Prim2SF x) as [s|[|]| |[|] m e]; try discriminate; reflexivity.
Qed.

Lemma f64_mul_nonneg v s :
  sf_pos (Prim2SF v) = true -> sf_pos (Prim2SF s) = true ->
  sf_nonneg (Prim2SF (PrimFloat.mul v s)) = true.
Proof. intros Hv Hs. rewrite FloatAxioms.mul_spec. now apply SFmul_pos. Qed.

Lemma of_uint63_nonneg n : sf_nonneg (Prim2SF (PrimFloat.of_uint63 n)) = true.
Proof.
  rewrite FloatAxioms.of_uint63_spec. pose proof (Uint63.to_Z_bounded n) as H.
  destruct (Uint63.to_Z n) as [|p|p]; [reflexivity| |lia].
  apply binary_round_nonneg.
Qed.

Lemma f64_round2_nonneg x :
  sf_nonneg (Prim2SF x) = true -> sf_nonneg (Prim2SF (f64_round2 x)) = true.
Proof.
  intros H. unfold f64_round2.
  destruct (Prim2SF x) as [s|s| |s m e] eqn:E; try (now rewrite E).
  destruct s; [discriminate|].
  destruct (-6 <=? e)%Z; [now rewrite E|].
  rewrite FloatAxioms.div_spec.
  change (Prim2SF (f64_of_int 100)) with (S754_finite false 7036874417766400 (-46)).
  apply SFdiv_nonneg, of_uint63_nonneg.
Qed.

(** ** The contract of the allocation engine *)

Lemma advice_contract_of_divisor {R : Type} (N : PyNum R) :
  divisor_ok N -> advice_contract N.
Proof.
  intros Hd inc ex a risk occ know d debt.
  rewrite investment_advice_unfold.
  destruct (leb _ _); [reflexivity|].
  rewrite normalize_allocate_table, Hd.
  eexists. split; [reflexivity|]. split; reflexivity.
Qed.

Section NonNegative.
Context {R : Type} (N : PyNum R).
Variable positive_ratio : R -> bool.
Hypothesis guard :
  forall s, ltb (of_int 0) s = true -> leb s (of_int 0) = false.
Hypothesis divisor :
  forall hi mo c1 c2 c3,
    eqb (total_of (ratio_case hi mo c1 c2 c3)) (of_int 0) = false.
Hypothesis ratios_pos :
  forall hi mo c1 c2 c3,
    forallb (fun x => positive_ratio (div x (total_of (ratio_case hi mo c1 c2 c3))))
      (values (table (ratio_case hi mo c1 c2 c3))) = true.
Hypothesis share_nonneg :
  forall v s, positive_ratio v = true -> ltb (of_int 0) s = true ->
              leb (of_int 0) (round2 (mul v s)) = true.

Lemma nonneg_amounts_from : nonneg_amounts N.
Proof.
  intros inc ex a risk occ know d debt Hs.
  rewrite investment_advice_unfold, (guard _ Hs), spec_ratio_case,
    normalize_allocate_table, divisor.
  eexists. split; [reflexivity|]. split; [reflexivity|].
  pose proof (ratios_pos (ci_eqb risk "High") (ci_eqb risk "Moderate")
                (fires_age_dependents a d) (fires_occupation occ)
                (fires_knowledge know)) as Hp.
  cbn [table values map snd forallb] in Hp.
  rewrite !andb_true_iff in Hp. destruct Hp as (H1 & H2 & H3 & H4 & H5 & _).
  unfold spec_allocate, share. cbn [values map snd forallb].
  rewrite !share_nonneg by assumption. reflexivity.
Qed.

End NonNegative.

(** *** Exact arithmetic *)

Lemma Qltb_lt (x y : Q) : Qltb x y = true <-> x < y.
Proof.
  unfold Qltb. rewrite negb_true_iff, <- not_true_iff_false, Qle_bool_iff.
  split; [apply Qnot_le_lt | apply Qlt_not_le].
Qed.

Lemma rhe_div_nonneg (a b : Z) : (0 <= a)%Z -> (0 < b)%Z -> (0 <= rhe_div a b)%Z.
Proof.
  intros Ha Hb. unfold rhe_div. pose proof (Z.div_pos a b Ha Hb).
  destruct (_ ?= _)%Z; [destruct (Z.even _)| |]; lia.
Qed.

Lemma Qround2_nonneg (x : Q) : 0 <= x -> 0 <= Qround2 x.
Proof.
  destruct x as [n d]. unfold Qround2, Qle. cbn. intros H.
  pose proof (rhe_div_nonneg (n * 100) (Z.pos d) ltac:(lia) ltac:(lia)). lia.
Qed.

Lemma nonneg_amounts_Q : nonneg_amounts Q_num.
Proof.
  apply (nonneg_amounts_from Q_num (fun v => Qltb 0 v)).
  - intros s Hs. apply Qltb_lt in Hs. cbn in Hs |- *.
    apply not_true_iff_false. rewrite Qle_bool_iff.
    change (inject_Z 0) with 0 in *. lra.
  - intros [|] [|] [|] [|] [|]; vm_compute; reflexivity.
  - intros [|] [|] [|] [|] [|]; vm_compute; reflexivity.
  - intros v s Hv Hs. apply Qltb_lt in Hv. apply Qltb_lt in Hs. cbn in Hs |- *.
    change (inject_Z 0) with 0 in *.
    apply Qle_bool_iff, Qround2_nonneg. apply Qmult_le_0_compat; lra.
Qed.

(** *** binary64 *)

Lemma nonneg_amounts_f64 (sum : list float -> float) :
  let N := f64_num sum in
  (forall hi mo c1 c2 c3,
      PrimFloat.eqb (@total_of float N (@ratio_case float N hi mo c1 c2 c3))
        PrimFloat.zero = false) ->
  (forall hi mo c1 c2 c3,
      forallb (fun x => sf_pos (Prim2SF (PrimFloat.div x
                 (@total_of float N (@ratio_case float N hi mo c1 c2 c3)))))
        (values (table (@ratio_case float N hi mo c1 c2 c3))) = true) ->
  nonneg_amounts N.
Proof.
  intros N Hd Hp.
  apply (nonneg_amounts_from (f64_num sum) (fun v => sf_pos (Prim2SF v))).
  - intros s. apply f64_pos_guard.
  - exact Hd.
  - exact Hp.
  - intros v s Hv Hs. cbn.
    apply f64_leb_zero, f64_round2_nonneg, f64_mul_nonneg; [exact Hv|].
    apply f64_ltb_zero, Hs.
Qed.

Lemma nonneg_amounts_F64 : nonneg_amounts F64.
Proof.
  apply nonneg_amounts_f64;
    intros [|] [|] [|] [|] [|]; vm_compute; reflexivity.
Qed.

Lemma nonneg_amounts_F64c : nonneg_amounts F64c.
Proof.
  apply nonneg_amounts_f64;
    intros [|] [|] [|] [|] [|]; vm_compute; reflexivity.
Qed.

(** ** The allocation engine: the claims *)

(** C1.  The ratio table before normalization is the specified one: the
    base table picked by risk tolerance (High, Moderate, otherwise Low),
    then the three blocks, each tested on its own and applied in order
    (age over 50 or more than 3 dependents: Stocks -0.10, Insurance +0.05,
    Emergency Fund +0.05; occupation Business or Freelancer in any case:
    Emergency Fund +0.05, Mutual Funds -0.05; knowledge Beginner in any
    case: Stocks -0.05, Mutual Funds +0.05).  With savings that pass the
    guard, it is this table, unclamped, that is normalized.  This holds in
    every arithmetic. *)
Theorem ratio_table_as_specified :
  forall (R : Type) (N : PyNum R) (income expenses : R) (age : Z)
         (risk occ know : string) (dependents : Z) (debt : R),
    adjusted_ratio age risk occ know dependents
    = Returned (table (spec_ratio age risk occ know dependents))
    /\ investment_advice income expenses age risk occ know dependents debt
       = (if leb (sub (sub income expenses) debt) (of_int 0)
          then Returned (ErrorDict insufficient_msg)
          else normalize_allocate
                 (table (spec_ratio age risk occ know dependents))
                 (sub (sub income expenses) debt))
    /\ (fires_age_dependents age dependents = true
        <-> (age > 50 \/ dependents > 3)%Z)
    /\ (fires_occupation occ = true
        <-> ci_eq occ "Business" \/ ci_eq occ "Freelancer")
    /\ (fires_knowledge know = true <-> ci_eq know "Beginner").
Proof.
  intros. split; [|split; [|split; [|split]]].
  - apply adjusted_ratio_table.
  - apply investment_advice_unfold.
  - unfold fires_age_dependents. rewrite orb_true_iff, !Z.gtb_gt. tauto.
  - unfold fires_occupation. now rewrite orb_true_iff, !ci_eqb_spec.
  - apply ci_eqb_spec.
Qed.

(** C3.  [investment_advice] reports insufficient savings exactly when
    income - expenses - debt is at most 0, and then returns the error
    dictionary alone, with no amounts; in every other case it returns the
    five amounts and no error.  It raises nothing.  This holds in exact
    arithmetic and in binary64 under either [sum]. *)
Theorem insufficient_savings_only_error :
  advice_contract Q_num /\ advice_contract F64 /\ advice_contract F64c.
Proof.
  repeat split; apply advice_contract_of_divisor.
  - apply divisor_ok_Q.
  - apply divisor_ok_F64.
  - apply divisor_ok_F64c.
Qed.

(** C6.  With positive savings all five amounts returned are at least
    zero, in exact arithmetic and in binary64 under either [sum]: every
    ratio the table can hold is positive, and neither the product with the
    savings nor the rounding to two decimals changes the sign. *)
Theorem amounts_non_negative :
  nonneg_amounts Q_num /\ nonneg_amounts F64 /\ nonneg_amounts F64c.
Proof.
  repeat split.
  - apply nonneg_amounts_Q.
  - apply nonneg_amounts_F64.
  - apply nonneg_amounts_F64c.
Qed.

(** C10.  In exact arithmetic each adjustment block leaves the sum of the
    ratios unchanged, on any dictionary it runs on, so the sum before
    normalization is 1; and the divisor of the normalization is not zero,
    in exact arithmetic and in binary64 under either [sum], so
    [investment_advice] always returns and never divides by zero. *)
Theorem normalization_divisor_nonzero :
  (forall d d' : dict Q,
      (adjust_age_dependents d = Returned d' ->
       py_sum (values d') == py_sum (values d))
      /\ (adjust_occupation d = Returned d' ->
          py_sum (values d') == py_sum (values d))
      /\ (adjust_knowledge d = Returned d' ->
          py_sum (values d') == py_sum (values d)))
  /\ (forall age risk occ know dependents,
         @total_of Q Q_num (spec_ratio age risk occ know dependents) == 1)
  /\ (divisor_ok Q_num /\ divisor_ok F64 /\ divisor_ok F64c)
  /\ (forall income expenses age risk occ know dependents debt,
         returns (@investment_advice Q Q_num income expenses age risk occ know
                    dependents debt) = true)
  /\ (forall income expenses age risk occ know dependents debt,
         returns (@investment_advice float F64 income expenses age risk occ know
                    dependents debt) = true)
  /\ (forall income expenses age risk occ know dependents debt,
         returns (@investment_advice float F64c income expenses age risk occ know
                    dependents debt) = true).
Proof.
  assert (Hret : forall (R : Type) (N : PyNum R), divisor_ok N ->
            forall income expenses age risk occ know dependents debt,
              returns (investment_advice income expenses age risk occ know
                         dependents debt) = true).
  { intros R N Hd inc ex a risk occ know d debt.
    rewrite investment_advice_unfold. destruct (leb _ _); [reflexivity|].
    now rewrite normalize_allocate_table, Hd. }
  split; [|split; [|split; [|split; [|split]]]].
  - intros d d'. split; [|split].
    + apply adjust_age_dependents_sum.
    + apply adjust_occupation_sum.
    + apply adjust_knowledge_sum.
  - apply total_of_Q.
  - split; [|split].
    + apply divisor_ok_Q.
    + apply divisor_ok_F64.
    + apply divisor_ok_F64c.
  - apply Hret, divisor_ok_Q.
  - apply Hret, divisor_ok_F64.
  - apply Hret, divisor_ok_F64c.
Qed.

(** ** The sum of the amounts *)





(** ** The projection engine *)

Lemma div12_step (k : nat) :
  (if (S k mod 12 =? 0)%nat then S k / 12 = S (k / 12) else S k / 12 = k / 12)%nat.
Proof.
  pose proof (Nat.div_mod_eq k 12). pose proof (Nat.div_mod_eq (S k) 12).
  pose proof (Nat.mod_upper_bound k 12 ltac:(lia)).
  pose proof (Nat.mod_upper_bound (S k) 12 ltac:(lia)).
  destruct (Nat.eqb_spec (S k mod 12) 0); lia.
Qed.

Lemma month_test (k : nat) :
  ((Z.of_nat k + 1) mod 12 =? 0)%Z = (S k mod 12 =? 0)%nat.
Proof.
  replace (Z.of_nat k + 1)%Z with (Z.of_nat (S k)) by lia.
  change 12%Z with (Z.of_nat 12). rewrite <- Nat2Z.inj_mod.
  destruct (Nat.eqb_spec (S k mod 12) 0) as [->|Hne]; [reflexivity|].
  apply Z.eqb_neq. lia.
Qed.

Section ProjectionFacts.
Context {R : Type} {N : PyNum R}.
Local Open Scope py_scope.

(** The contribution is stepped up after each twelfth month. *)
Lemma contribution_succ (mc s : R) (k : nat) :
  contribution mc s (S (S k))
  = if (S k mod 12 =? 0)%nat
    then contribution mc s (S k) * (of_int 1 + s)
    else contribution mc s (S k).
Proof.
  unfold contribution. rewrite !Nat.sub_succ, !Nat.sub_0_r.
  pose proof (div12_step k) as Hd.
  destruct (S k mod 12 =? 0)%nat; rewrite Hd; reflexivity.
Qed.

(** After [k] turns the loop holds the total of the recurrence and the
    contribution of the next month. *)
Lemma run_months_nat (r s P mc : R) (k : nat) :
  fold_left (month_step r s) (map Z.of_nat (seq 0 k)) (P, mc)
  = (total_after P r mc s k, contribution mc s (S k)).
Proof.
  induction k as [|k IH].
  - reflexivity.
  - rewrite seq_S, map_app, fold_left_app, IH. cbn [map fold_left Nat.add].
    unfold month_step. rewrite month_test, contribution_succ. cbn [total_after].
    destruct (S k mod 12 =? 0)%nat; reflexivity.
Qed.

Lemma run_months_spec (r s : R) (n : Z) (P mc : R) :
  run_months r s n P mc
  = (total_after P r mc s (Z.to_nat n), contribution mc s (S (Z.to_nat n))).
Proof. unfold run_months, range. apply run_months_nat. Qed.

Lemma compound_with_stepup_spec (P rate yrs mc s : R) :
  compound_with_stepup P rate yrs mc s
  = (n <- py_int (yrs * of_int 12) ;;
     Returned (round2 (total_after P (div rate (of_int 12)) mc s (Z.to_nat n)))).
Proof.
  unfold compound_with_stepup.
  destruct (py_int (yrs * of_int 12)) as [n|e]; cbn [bind]; [|reflexivity].
  now rewrite run_months_spec.
Qed.

Lemma contribution_first_year (mc s : R) (m : nat) :
  (1 <= m <= 12)%nat -> contribution mc s m = mc.
Proof.
  intros H. unfold contribution.
  replace ((m - 1) / 12)%nat with 0%nat; [reflexivity|].
  symmetry. apply Nat.div_small. lia.
Qed.

Lemma contribution_second_year (mc s : R) (m : nat) :
  (13 <= m <= 24)%nat -> contribution mc s m = mc * (of_int 1 + s).
Proof.
  intros H. unfold contribution.
  replace ((m - 1) / 12)%nat with 1%nat; [reflexivity|].
  apply (Nat.div_unique _ _ _ (m - 13)); lia.
Qed.

End ProjectionFacts.

(** [int] truncates; over the months that run, that is the floor. *)
Lemma Qtrunc_floor_nat (q : Q) : Z.to_nat (Qtrunc q) = Z.to_nat (Qfloor q).
Proof.
  destruct q as [n d]. unfold Qtrunc. cbn [Qfloor Qnum Qden].
  destruct (Z_lt_le_dec n 0) as [Hn|Hn].
  - assert (n ÷ Z.pos d <= 0)%Z.
    { replace n with (- - n)%Z by lia. rewrite Z.quot_opp_l by lia.
      pose proof (Z.quot_pos (- n) (Z.pos d) ltac:(lia) ltac:(lia)). lia. }
    assert (n / Z.pos d < 0)%Z by (apply Z.div_lt_upper_bound; lia).
    lia.
  - now rewrite Z.quot_div_nonneg by lia.
Qed.

Lemma f64_int_floor (x : float) (n : Z) :
  f64_int x = Returned n -> Z.to_nat n = Z.to_nat (Qfloor (f64_exact x)).
Proof.
  unfold f64_int, f64_exact.
  destruct (Prim2SF x) as [s|s| |s m e]; try discriminate.
  - intros [= <-]. reflexivity.
  - intros [= <-]. destruct (0 <=? e)%Z eqn:He.
    + destruct s; cbn [Qfloor inject_Z Qopp Qnum Qden].
      * rewrite !Z.div_1_r. reflexivity.
      * rewrite !Z.div_1_r. reflexivity.
    + assert (Hp : (0 < 2 ^ (- e))%Z) by (apply Z.pow_pos_nonneg; lia).
      destruct s; cbn [Qfloor Qopp Qnum Qden]; rewrite Z2Pos.id by exact Hp.
      * pose proof (Z.div_pos (Z.pos m) (2 ^ (- e)) ltac:(lia) Hp).
        assert (- Z.pos m / 2 ^ (- e) < 0)%Z by (apply Z.div_lt_upper_bound; lia).
        lia.
      * reflexivity.
Qed.

Lemma f64_int_finite (x : float) :
  match Prim2SF x with
  | S754_zero _ | S754_finite _ _ _ => exists n, f64_int x = Returned n
  | S754_infinity _ | S754_nan => returns (f64_int x) = false
  end.
Proof.
  unfold f64_int. destruct (Prim2SF x); try reflexivity; eexists; reflexivity.
Qed.

(** C4.  [compound_with_stepup] runs the loop once per month for
    [int(years * 12)] months; each month the total becomes
    total * (1 + rate/12) + contribution; after every twelfth month, once
    that month's contribution is in, the contribution is multiplied by
    (1 + step-up), so months 1 to 12 pay the original contribution and
    months 13 to 24 pay it times (1 + step-up), one multiplication; the
    total after the last month is returned rounded to two decimals.  All of
    this holds in every arithmetic.  The number of months is the floor of
    years * 12: in exact arithmetic the call always returns with that many
    months run, and in binary64 [int] returns the truncation of every finite
    value, which leaves the same number of months, and raises on the
    others. *)
Theorem compound_with_stepup_recurrence :
  (forall (R : Type) (N : PyNum R) (P rate yrs mc s : R),
      let r := div rate (of_int 12) in
      compound_with_stepup P rate yrs mc s
      = (n <- py_int (mul yrs (of_int 12)) ;;
         Returned (round2 (total_after P r mc s (Z.to_nat n))))
      /\ (forall n : Z,
             run_months r s n P mc
             = (total_after P r mc s (Z.to_nat n),
                contribution mc s (S (Z.to_nat n)))
             /\ List.length (range n) = Z.to_nat n)
      /\ (forall k : nat,
             total_after P r mc s (S k)
             = add (mul (total_after P r mc s k) (add (of_int 1) r))
                 (contribution mc s (S k)))
      /\ (forall k : nat,
             contribution mc s (S (S k))
             = if (S k mod 12 =? 0)%nat
               then mul (contribution mc s (S k)) (add (of_int 1) s)
               else contribution mc s (S k))
      /\ (forall m : nat, (1 <= m <= 12)%nat -> contribution mc s m = mc)
      /\ (forall m : nat, (13 <= m <= 24)%nat ->
             contribution mc s m = mul mc (add (of_int 1) s)))
  /\ (forall P rate yrs mc s : Q,
         compound_with_stepup P rate yrs mc s
         = Returned
             (Qround2
                (total_after P (div rate (of_int 12)) mc s
                   (Z.to_nat (Qfloor (mul yrs (of_int 12)))))))
  /\ (forall x : float,
         match Prim2SF x with
         | S754_zero _ | S754_finite _ _ _ =>
             exists n, f64_int x = Returned n
                       /\ Z.to_nat n = Z.to_nat (Qfloor (f64_exact x))
         | S754_infinity _ | S754_nan => returns (f64_int x) = false
         end).
Proof.
  split; [|split].
  - intros R N P rate yrs mc s r.
    split; [apply compound_with_stepup_spec|].
    split; [intros n; split; [apply run_months_spec|]|].
    { unfold range. now rewrite length_map, length_seq. }
    split; [reflexivity|].
    split; [apply contribution_succ|].
    split; [apply contribution_first_year | apply contribution_second_year].
  - intros P rate yrs mc s. rewrite compound_with_stepup_spec.
    cbn [py_int Q_num bind]. now rewrite Qtrunc_floor_nat.
  - intros x. pose proof (f64_int_finite x) as H.
    destruct (Prim2SF x) eqn:E; try exact H;
      destruct H as [n Hn]; exists n; (split; [exact Hn|]);
      apply f64_int_floor, Hn.
Qed.

(** ** The catalog query *)

Section StableSort.
Context {A K : Type} (lt : K -> K -> bool) (key : A -> K).
Hypothesis lt_asym : forall a b, lt a b = true -> lt b a = false.
Hypothesis le_trans :
  forall a b c, lt b a = false -> lt c b = false -> lt c a = false.







End StableSort.

(** *** The key of line 35 *)









(** *** The query *)







(** ** The loader *)

Lemma parse_cagr_spec (parse_float : string -> option Q) (r : row) :
  parse_cagr parse_float r = spec_cagr parse_float r.
Proof.
  unfold parse_cagr, spec_cagr, truthy.
  destruct (row_get "CAGR_10Y_%" "" r) as [s|]; [|reflexivity].
  destruct (String.eqb s ""); reflexivity.
Qed.

Lemma load_row_ok (parse_float : string -> option Q) (r : row) :
  has_text_fields r ->
  load_row parse_float r = Returned (record_of parse_float r).
Proof.
  intros [Ht Hn]. unfold load_row, record_of. rewrite parse_cagr_spec.
  destruct (row_get "Type" "" r) as [t|]; [|contradiction].
  destruct (row_get "Name" "" r) as [n|]; [|contradiction].
  reflexivity.
Qed.

Lemma load_rows_ok (parse_float : string -> option Q) (rows : list row) :
  Forall has_text_fields rows ->
  mapM (load_row parse_float) rows = Returned (map (record_of parse_float) rows).
Proof.
  induction 1 as [|r rows Hr _ IH]; [reflexivity|].
  cbn [mapM map]. rewrite (load_row_ok _ _ Hr). cbn [bind]. now rewrite IH.
Qed.

(** C8, as amended.  When [open] raises [FileNotFoundError],
    [load_resources] shows the message and returns the empty catalog; any
    other exception of [open] is raised on.  When the file opens and no row
    is too short for its Type and Name columns, the load returns one record
    per row, in order: the CAGR of a row is unknown when its field is
    missing, empty or does not parse, and is the parsed number otherwise,
    whatever the other rows hold. *)
Theorem load_resources_contained :
  forall (open_csv : string -> outcome (list row))
         (parse_float : string -> option Q) (csv_path : string),
    (open_csv csv_path = Raised FileNotFoundError ->
     load_resources open_csv parse_float csv_path = (Returned [], [not_found_msg]))
    /\ (forall e, open_csv csv_path = Raised e -> e <> FileNotFoundError ->
        load_resources open_csv parse_float csv_path = (Raised e, []))
    /\ (forall rows, open_csv csv_path = Returned rows ->
        Forall has_text_fields rows ->
        load_resources open_csv parse_float csv_path
        = (Returned (map (record_of parse_float) rows), []))
    /\ (forall r,
           (row_get "CAGR_10Y_%" "" r = None \/ row_get "CAGR_10Y_%" "" r = Some ""
            \/ exists s, row_get "CAGR_10Y_%" "" r = Some s /\ parse_float s = None) ->
           cagr_10y (record_of parse_float r) = None).
Proof.
  intros open_csv parse_float csv_path. unfold load_resources.
  split; [|split; [|split]].
  - intros ->. reflexivity.
  - intros e -> He. destruct e; try reflexivity. contradiction.
  - intros rows -> Hrows. now rewrite load_rows_ok.
  - intros r. unfold record_of, spec_cagr. cbn [cagr_10y].
    intros [-> | [-> | (s & -> & Hs)]]; try reflexivity.
    destruct (String.eqb s ""); [reflexivity | exact Hs].
Qed.

(** C8 as stated fails.  A file that is there but cannot be read makes
    [open] raise [PermissionError], which is not caught: no empty catalog is
    returned and nothing is shown.  And a row too short for its Name column
    makes [strip] fail on [None]: the load ends with [AttributeError],
    although the only thing wrong with the CAGR of that row is that it is
    absent. *)
Lemma load_resources_raises :
  load_resources (fun _ => Raised PermissionError) (fun _ => None) "data.csv"
  = (Raised PermissionError, [])
  /\ load_resources
       (fun _ => Returned [[("Type", Some "Stock"); ("Name", None);
                            ("CAGR_10Y_%", None)]])
       (fun _ => None) "data.csv"
     = (Raised AttributeError, []).
Proof. split; reflexivity. Qed.

(** ** The plan flow and the existing-savings figure *)

(** C9.  The existing-savings figure reaches nothing that is computed: a
    request with another figure gives the same page (allocation, projection
    of every bucket, total and suggestions alike), in every arithmetic.
    Two requests equal in all other fields give the same page; and the
    projection of a bucket is [compound_with_stepup] started from the
    principal 0. *)
Theorem existing_savings_unused :
  forall (R : Type) (N : PyNum R) (resources : list resource) (q : request R),
    (forall x : R,
        generate_plan resources (with_existing_savings q x)
        = generate_plan resources q)
    /\ (forall q' : request R,
           with_existing_savings q' (existing_savings q) = q ->
           generate_plan resources q' = generate_plan resources q)
    /\ (forall kv : string * R,
           project_bucket q kv
           = (rate <- dict_get (fst kv) returns_rate ;;
              fv <- compound_with_stepup (of_int 0) rate (of_int (years q))
                      (snd kv) (lit (step_up_percent q) 100) ;;
              Returned (fst kv, fv)))
    /\ (forall total_savings allocation projections total suggestions,
           generate_plan resources q
           = Returned (ShowPlan total_savings allocation projections total suggestions) ->
           mapM (project_bucket q) allocation = Returned projections
           /\ total = fold_left add (values projections) (of_int 0)).
Proof.
  intros R N resources q.
  assert (H1 : forall x, generate_plan resources (with_existing_savings q x)
                         = generate_plan resources q) by reflexivity.
  split; [exact H1|]. split; [|split].
  - intros q' <-. symmetry. reflexivity.
  - reflexivity.
  - intros ts al pr tot sg. unfold generate_plan.
    destruct (investment_advice _ _ _ _ _ _ _ _) as [p|e]; cbn [bind];
      [|discriminate].
    destruct (has_error p); [discriminate|].
    destruct (mapM (project_bucket q) (items p)) as [pr'|e] eqn:E; cbn [bind];
      [|discriminate].
    destruct (mapM (suggest_bucket resources) (keys (items p))) as [sg'|e];
      cbn [bind]; [|discriminate].
    intros [= _ <- <- <- _]. split; [exact E | reflexivity].
Qed.

(** ** The explorer *)

Lemma py_min_Qmin (a b : Q) : @py_min Q Q_num a b = Qmin a b.
Proof.
  unfold py_min. cbn [ltb Q_num]. unfold Qltb, Qmin, GenericMinMax.gmin.
  destruct (Qcompare a b) eqn:E.
  - apply Qeq_alt in E. assert (H : Qle_bool a b = true)
      by (apply Qle_bool_iff; rewrite E; apply Qle_refl).
    now rewrite H.
  - apply Qlt_alt in E. assert (H : Qle_bool a b = true)
      by (apply Qle_bool_iff, Qlt_le_weak, E).
    now rewrite H.
  - apply Qgt_alt in E. assert (H : Qle_bool a b = false).
    { apply not_true_iff_false. rewrite Qle_bool_iff. now apply Qlt_not_le. }
    now rewrite H.
Qed.

(** C7.  The explorer computes the future value amount * (1 + rate/100)
    ^ years, the profit as the future value less the amount, and the
    progress as the smaller of future value / (amount * 3) and 1, in every
    arithmetic and for every power operator.  In exact arithmetic the
    builtin [min] is the minimum, so the progress is at most 1; and 10000 at
    12 percent over 10 years grows to 31058.48 to the cent. *)
Theorem calculate_growth_formula :
  (forall (R : Type) (N : PyNum R) (pow : R -> Z -> R) (amount rate : R)
          (years : Z),
      let final_value :=
        mul amount (pow (add (of_int 1) (div rate (of_int 100))) years) in
      calculate_growth pow amount rate years
      = (final_value, sub final_value amount,
         py_min (div final_value (mul amount (of_int 3))) (of_int 1)))
  /\ (forall (amount rate : Q) (years : Z),
         let final_value := amount * (1 + rate / 100) ^ years in
         calculate_growth Qpow amount rate years
         = (final_value, final_value - amount,
            Qmin (final_value / (amount * 3)) 1)
         /\ snd (calculate_growth Qpow amount rate years) <= 1)
  /\ Qabs (fst (fst (calculate_growth Qpow 10000 12 10)) - (3105848 # 100))
     <= 5 # 1000.
Proof.
  split; [|split].
  - reflexivity.
  - intros amount rate years final_value.
    assert (E : calculate_growth Qpow amount rate years
                = (final_value, final_value - amount,
                   Qmin (final_value / (amount * 3)) 1)).
    { unfold calculate_growth. rewrite py_min_Qmin. reflexivity. }
    split; [exact E|]. rewrite E. cbn [snd]. apply Q.le_min_r.
  - vm_compute. discriminate.
Qed.

(** ** The binary64 reading on concrete inputs *)

(** [round(2.675, 2)] is 2.67 and [round(0.125, 2)] is 0.12: the float below
    2.675 rounds down, the exact tie goes to the even neighbour. *)
Example round2_binary64 :
  f64_round2 (@lit float F64 2675 1000) = @lit float F64 267 100
  /\ f64_round2 (@lit float F64 125 1000) = @lit float F64 12 100.
Proof. split; vm_compute; reflexivity. Qed.

(** The default inputs of the page: 20000 of savings, Moderate risk, a
    beginner. *)
Example advice_default_inputs :
  @investment_advice float F64 (f64_of_int 50000) (f64_of_int 25000) 30
    "Moderate" "Job" "Beginner" 1 (f64_of_int 5000)
  = Returned
      (Allocations
         [("Stocks", f64_of_int 5000); ("Mutual Funds", f64_of_int 7000);
          ("Gold", f64_of_int 2000); ("Insurance", f64_of_int 2000);
          ("Emergency Fund", f64_of_int 4000)]).
Proof. vm_compute. reflexivity. Qed.

(** Twelve months of 1000 at 12 percent a year, no step-up: 12682.50, in
    binary64 and in exact arithmetic. *)
Example compound_one_year :
  @compound_with_stepup float F64 (f64_of_int 0) (@lit float F64 12 100)
    (f64_of_int 1) (f64_of_int 1000) (f64_of_int 0)
  = Returned (@lit float F64 126825 10)
  /\ @compound_with_stepup Q Q_num 0 (12 # 100) 1 1000 0 = Returned (1268250 # 100).
Proof. split; vm_compute; reflexivity. Qed.
